(** * sleeper-api: the resource client and its error translator

    A shallow embedding of [src/index.ts]: the avatar URL utility, the
    [SleeperAPI] class with its accessors, and the private [handleError]
    method.  JavaScript values, the abrupt completions of the language
    and the transport the class is given ([AxiosInstance]) are modelled
    first; the definitions of the program follow, under the names they
    have in the source. *)

From Stdlib Require Import String Ascii List ZArith Bool Lia DecimalString.
From Stdlib Require DecimalPos DecimalZ.
Import ListNotations.

#[local] Set Warnings "-register-all".

Local Open Scope string_scope.
Local Open Scope Z_scope.

(* ===================================================================== *)
(** ** JavaScript values and completions *)
(* ===================================================================== *)

Module Js.

(** The data a failure ([error: any]) or a decoded JSON body can be:
    plain data.  [JsNumber n] is the integral Number [n].
    [JsObject members] lists the data properties a property read finds
    on the object, own or inherited (an [Error] instance appears with
    its [message], which is faithful for reads, not for its rendering
    by [to_string]); when a name occurs twice the first entry is the one
    read.  Accessor properties (getters, which can run code and throw
    anything), function values (the [toJSON] of the test fixtures) and
    Symbols are outside this model: what is proved for every [Value]
    is proved for plain data. *)
Inductive Value : Type :=
| JsUndefined
| JsNull
| JsBool (b : bool)
| JsNumber (n : Z)
| JsString (s : string)
| JsArray (items : list Value)
| JsObject (members : list (string * Value)).

(** Why the engine raised a [TypeError]. *)
Inductive TypeErrorCause : Type :=
| ReadOfNullish (base : Value) (property : string)
| NotPrimitive (v : Value).

(** What a [throw] carries in this program: an object built with
    [new Error(message)], or a [TypeError] raised by the engine (its
    message text differs between engines and is not modelled). *)
Inductive Exception : Type :=
| JsError (message : string)
| JsTypeError (cause : TypeErrorCause).

(** Result of evaluating an expression or running a statement list. *)
Inductive Completion (A : Type) : Type :=
| Normal (a : A)
| Throw (x : Exception).

Arguments Normal {A} a.
Arguments Throw {A} x.

Definition bind {A B : Type} (c : Completion A) (k : A -> Completion B)
  : Completion B :=
  match c with
  | Normal a => k a
  | Throw x => Throw x
  end.

Fixpoint lookup (key : string) (members : list (string * Value))
  : option Value :=
  match members with
  | [] => None
  | (k, v) :: rest => if String.eqb k key then Some v else lookup key rest
  end.

(** ToBoolean, as applied by [if (e)]. *)
Definition truthy (v : Value) : bool :=
  match v with
  | JsUndefined | JsNull => false
  | JsBool b => b
  | JsNumber n => negb (n =? 0)
  | JsString s => negb (String.eqb s "")
  | JsArray _ | JsObject _ => true
  end.

(** The read [base.property], for a property name that no built-in
    prototype defines and that is neither [length] nor an index: such
    are the names the program reads ([isAxiosError], [response],
    [request], [message], [status]).  Primitives and arrays answer
    [undefined]; on [null] and [undefined] the engine raises. *)
Definition get (base : Value) (property : string) : Completion Value :=
  match base with
  | JsUndefined | JsNull => Throw (JsTypeError (ReadOfNullish base property))
  | JsObject members =>
      match lookup property members with
      | Some v => Normal v
      | None => Normal JsUndefined
      end
  | _ => Normal JsUndefined
  end.

(** Number::toString for an integer that a Number holds exactly
    (magnitude at most 2^53 - 1): all its digits.  Beyond that range a
    Number is rounded, and from 10^21 on it is printed in exponent
    notation; statements about the text of a number carry the bound. *)
Definition number_to_string (n : Z) : string :=
  NilZero.string_of_int (Z.to_int n).

(** [Array.prototype.join] with a comma, over the rendering [render] of
    one value: [null] and [undefined] elements are rendered as the empty
    string. *)
Section Join.

Variable render : Value -> Completion string.

Definition render_element (x : Value) : Completion string :=
  match x with
  | JsUndefined | JsNull => Normal ""
  | _ => render x
  end.

Fixpoint join (items : list Value) : Completion string :=
  match items with
  | [] => Normal ""
  | x :: rest =>
      bind (render_element x)
        (fun s =>
           match rest with
           | [] => Normal s
           | _ :: _ => bind (join rest) (fun r => Normal (s ++ "," ++ r))
           end)
  end.

End Join.

(** ToString, as applied by a template literal [`${e}`].  An array
    joins its elements.  An object is rendered as a plain object, by
    [Object.prototype.toString]; when its members include a [toString]
    (a data member, which is not callable and hides the inherited
    method) the conversion to a primitive fails with a [TypeError]. *)
Fixpoint to_string (v : Value) : Completion string :=
  match v with
  | JsUndefined => Normal "undefined"
  | JsNull => Normal "null"
  | JsBool true => Normal "true"
  | JsBool false => Normal "false"
  | JsNumber n => Normal (number_to_string n)
  | JsString s => Normal s
  | JsArray items => join to_string items
  | JsObject members =>
      match lookup "toString" members with
      | Some _ => Throw (JsTypeError (NotPrimitive v))
      | None => Normal "[object Object]"
      end
  end.

(** Induction on values, with the elements of an array at hand. *)
Section Value_induction.

Variable P : Value -> Prop.
Hypothesis P_undefined : P JsUndefined.
Hypothesis P_null : P JsNull.
Hypothesis P_bool : forall b, P (JsBool b).
Hypothesis P_number : forall n, P (JsNumber n).
Hypothesis P_string : forall s, P (JsString s).
Hypothesis P_array : forall items, Forall P items -> P (JsArray items).
Hypothesis P_object : forall members, P (JsObject members).

Fixpoint Value_induction (v : Value) : P v :=
  match v with
  | JsUndefined => P_undefined
  | JsNull => P_null
  | JsBool b => P_bool b
  | JsNumber n => P_number n
  | JsString s => P_string s
  | JsArray items =>
      P_array items
        ((fix all (l : list Value) : Forall P l :=
            match l with
            | [] => Forall_nil P
            | x :: rest => Forall_cons x (Value_induction x) (all rest)
            end) items)
  | JsObject members => P_object members
  end.

End Value_induction.

(** [v === n] for a numeric literal [n], as a [case n:] label tests. *)
Definition strict_equals_number (v : Value) (n : Z) : bool :=
  match v with
  | JsNumber m => m =? n
  | _ => false
  end.

End Js.

Import Js.

Declare Scope js_scope.
Delimit Scope js_scope with js.
Notation "x <- c ;; k" := (bind c (fun x => k))
  (at level 61, c at next level, right associativity) : js_scope.
Local Open Scope js_scope.

(* ===================================================================== *)
(** ** The transport: axios *)
(* ===================================================================== *)

Module Axios.

(** [axios.isAxiosError(payload)], from the axios package:
    [isObject(payload) && payload.isAxiosError === true], where
    [isObject] holds of non-null values whose [typeof] is ["object"].
    An array is such an object but has no [isAxiosError] member. *)
Definition isAxiosError (payload : Value) : bool :=
  match payload with
  | JsObject members =>
      match lookup "isAxiosError" members with
      | Some (JsBool true) => true
      | _ => false
      end
  | _ => false
  end.

(** [AxiosResponse<T>]: what a fulfilled [get] delivers. *)
Record AxiosResponse : Type := {
  data : Value;
  status : Z;
  statusText : string;
  headers : Value
}.

(** The second argument of [get], when there is one. *)
Record AxiosRequestConfig : Type := {
  params : list (string * Value)
}.

(** The arguments of one call of [axiosInstance.get]. *)
Record GetCall : Type := {
  url : string;
  config : option AxiosRequestConfig
}.

(** How the promise returned by [get] settles. *)
Inductive Outcome : Type :=
| Resolves (response : AxiosResponse)
| Rejects (error : Value).

(** The [get] method of an [AxiosInstance]. *)
Definition AxiosInstance : Type := GetCall -> Outcome.

(** The argument of [axios.create]. *)
Record CreateAxiosDefaults : Type := {
  baseURL : string;
  timeout : Z
}.

End Axios.

Import Axios.

(* ===================================================================== *)
(** ** Avatar URLs *)
(* ===================================================================== *)

(** [getAvatarUrl(avatar_id, thumbnail = false)]; an omitted flag is
    [None]. *)
Definition getAvatarUrl (avatar_id : string) (thumbnail : option bool)
  : string :=
  let thumbnail := match thumbnail with Some b => b | None => false end in
  let base := "https://sleepercdn.com/avatars" in
  if thumbnail
  then base ++ "/thumbs/" ++ avatar_id
  else base ++ "/" ++ avatar_id.

(* ===================================================================== *)
(** ** The client *)
(* ===================================================================== *)

(** The two private fields of [class SleeperAPI]. *)
Record SleeperAPI : Type := {
  axiosInstance : AxiosInstance;
  BASE_URL : string
}.

(** [constructor(axiosInstance?)]: the instance that is passed in, or
    else one made by [axios.create] (here [create]) for the fixed base
    URL with a timeout of ten seconds. *)
Definition new_SleeperAPI
  (create : CreateAxiosDefaults -> AxiosInstance)
  (injected : option AxiosInstance) : SleeperAPI :=
  let base_url := "https://api.sleeper.app/v1" in
  {| axiosInstance :=
       match injected with
       | Some instance => instance
       | None => create {| baseURL := base_url; timeout := 10000 |}
       end;
     BASE_URL := base_url |}.

(** *** Helper methods *)

(** The [switch (status)] of [handleError]. *)
Definition switch_status (status : Value) : Completion Value :=
  if strict_equals_number status 400 then
    Throw (JsError "Bad Request: Your request is invalid.")
  else if strict_equals_number status 404 then
    Throw (JsError "Not Found: The requested resource could not be found.")
  else if strict_equals_number status 429 then
    Throw (JsError "Too Many Requests: You are being rate limited.")
  else if strict_equals_number status 500 then
    Throw (JsError "Internal Server Error: Problem with the server.")
  else if strict_equals_number status 503 then
    Throw (JsError "Service Unavailable: The service is temporarily offline.")
  else
    s <- to_string status ;;
    Throw (JsError ("Unexpected Error: " ++ s)).

(** [private handleError(error: any): never].  The source declares that
    the method never returns; here it yields a completion, and that the
    completion is never [Normal] is proved below. *)
Definition handleError (error : Value) : Completion Value :=
  if isAxiosError error then
    response <- get error "response" ;;
    if truthy response then
      status <- get response "status" ;;
      switch_status status
    else
      request <- get error "request" ;;
      if truthy request then
        Throw (JsError "No response received from the server.")
      else
        message <- get error "message" ;;
        s <- to_string message ;;
        Throw (JsError ("Axios Error: " ++ s))
  else
    message <- get error "message" ;;
    s <- to_string message ;;
    Throw (JsError ("Unexpected Error: " ++ s)).

(** *** Promises and the calls the transport receives *)

(** How the promise returned by an [async] method settles. *)
Inductive Settled : Type :=
| Fulfilled (value : Value)
| Rejected (reason : Exception).

(** An [async] method of the client, run against the list of calls its
    transport has received so far: it yields how its promise settles,
    and the list of calls afterwards. *)
Definition Promise : Type := list GetCall -> Settled * list GetCall.

(** The body every accessor has:
    [try { const response = await this.axiosInstance.get(...);
           return response.data; }
     catch (error) { this.handleError(error); }].
    The transport is taken at its type: when [get] resolves, it
    resolves with an [AxiosResponse].  A decoded body has no callable
    [then], so the promise is fulfilled with [response.data] itself.  Were [handleError] to return, control
    would leave the [catch] block and the method would end without a
    value. *)
Definition try_get (this : SleeperAPI) (call : GetCall) : Promise :=
  fun calls =>
    let calls := (calls ++ [call])%list in
    match axiosInstance this call with
    | Resolves response => (Fulfilled (data response), calls)
    | Rejects error =>
        match handleError error with
        | Throw reason => (Rejected reason, calls)
        | Normal _ => (Fulfilled JsUndefined, calls)
        end
    end.

(** [get(url)], with no second argument. *)
Definition path (url : string) : GetCall :=
  {| url := url; config := None |}.

(** A defaulted parameter [sport: string = "nfl"]. *)
Definition or_nfl (sport : option string) : string :=
  match sport with Some s => s | None => "nfl" end.

(** *** User methods *)

Definition getUserByUsername (this : SleeperAPI) (username : string)
  : Promise :=
  try_get this (path ("/user/" ++ username)).

Definition getUserById (this : SleeperAPI) (userId : string) : Promise :=
  try_get this (path ("/user/" ++ userId)).

(** *** League methods *)

Definition getLeaguesForUser (this : SleeperAPI) (userId : string)
  (sport : option string) (season : string) : Promise :=
  let sport := or_nfl sport in
  try_get this (path ("/user/" ++ userId ++ "/leagues/" ++ sport ++ "/" ++ season)).

Definition getLeague (this : SleeperAPI) (leagueId : string) : Promise :=
  try_get this (path ("/league/" ++ leagueId)).

Definition getRosters (this : SleeperAPI) (leagueId : string) : Promise :=
  try_get this (path ("/league/" ++ leagueId ++ "/rosters")).

Definition getUsersInLeague (this : SleeperAPI) (leagueId : string)
  : Promise :=
  try_get this (path ("/league/" ++ leagueId ++ "/users")).

Definition getMatchups (this : SleeperAPI) (leagueId : string) (week : Z)
  : Promise :=
  try_get this
    (path ("/league/" ++ leagueId ++ "/matchups/" ++ number_to_string week)).

Definition getWinnersBracket (this : SleeperAPI) (leagueId : string)
  : Promise :=
  try_get this (path ("/league/" ++ leagueId ++ "/winners_bracket")).

Definition getLosersBracket (this : SleeperAPI) (leagueId : string)
  : Promise :=
  try_get this (path ("/league/" ++ leagueId ++ "/losers_bracket")).

Definition getTransactions (this : SleeperAPI) (leagueId : string)
  (round : Z) : Promise :=
  try_get this
    (path ("/league/" ++ leagueId ++ "/transactions/" ++ number_to_string round)).

Definition getTradedPicks (this : SleeperAPI) (leagueId : string)
  : Promise :=
  try_get this (path ("/league/" ++ leagueId ++ "/traded_picks")).

(** *** State methods *)

Definition getState (this : SleeperAPI) (sport : string) : Promise :=
  try_get this (path ("/state/" ++ sport)).

(** *** Draft methods *)

Definition getDraftsForUser (this : SleeperAPI) (userId : string)
  (sport : option string) (season : string) : Promise :=
  let sport := or_nfl sport in
  try_get this (path ("/user/" ++ userId ++ "/drafts/" ++ sport ++ "/" ++ season)).

Definition getDraftsForLeague (this : SleeperAPI) (leagueId : string)
  : Promise :=
  try_get this (path ("/league/" ++ leagueId ++ "/drafts")).

Definition getDraft (this : SleeperAPI) (draftId : string) : Promise :=
  try_get this (path ("/draft/" ++ draftId)).

Definition getPicksInDraft (this : SleeperAPI) (draftId : string)
  : Promise :=
  try_get this (path ("/draft/" ++ draftId ++ "/picks")).

Definition getTradedPicksInDraft (this : SleeperAPI) (draftId : string)
  : Promise :=
  try_get this (path ("/draft/" ++ draftId ++ "/traded_picks")).

(** *** Player methods *)

Definition getAllPlayers (this : SleeperAPI) (sport : option string)
  : Promise :=
  let sport := or_nfl sport in
  try_get this (path ("/players/" ++ sport)).

(** The type ["add" | "drop"]. *)
Inductive TrendingType : Type := add | drop.

Definition TrendingType_text (type : TrendingType) : string :=
  match type with add => "add" | drop => "drop" end.

(** [getTrendingPlayers(sport, type, lookbackHours = 24, limit = 25)]. *)
Definition getTrendingPlayers (this : SleeperAPI) (sport : string)
  (type : TrendingType) (lookbackHours limit : option Z) : Promise :=
  let lookbackHours := match lookbackHours with Some h => h | None => 24 end in
  let limit := match limit with Some l => l | None => 25 end in
  try_get this
    {| url := "/players/" ++ sport ++ "/trending/" ++ TrendingType_text type;
       config := Some {| params := [ ("lookback_hours", JsNumber lookbackHours);
                                     ("limit", JsNumber limit) ] |} |}.

(** *** The accessors, taken together *)

(** One call of an accessor, with its arguments. *)
Inductive Invocation : Type :=
| CallGetUserByUsername (username : string)
| CallGetUserById (userId : string)
| CallGetLeaguesForUser (userId : string) (sport : option string)
    (season : string)
| CallGetLeague (leagueId : string)
| CallGetRosters (leagueId : string)
| CallGetUsersInLeague (leagueId : string)
| CallGetMatchups (leagueId : string) (week : Z)
| CallGetWinnersBracket (leagueId : string)
| CallGetLosersBracket (leagueId : string)
| CallGetTransactions (leagueId : string) (round : Z)
| CallGetTradedPicks (leagueId : string)
| CallGetState (sport : string)
| CallGetDraftsForUser (userId : string) (sport : option string)
    (season : string)
| CallGetDraftsForLeague (leagueId : string)
| CallGetDraft (draftId : string)
| CallGetPicksInDraft (draftId : string)
| CallGetTradedPicksInDraft (draftId : string)
| CallGetAllPlayers (sport : option string)
| CallGetTrendingPlayers (sport : string) (type : TrendingType)
    (lookbackHours limit : option Z).

Definition invoke (this : SleeperAPI) (call : Invocation) : Promise :=
  match call with
  | CallGetUserByUsername username => getUserByUsername this username
  | CallGetUserById userId => getUserById this userId
  | CallGetLeaguesForUser userId sport season =>
      getLeaguesForUser this userId sport season
  | CallGetLeague leagueId => getLeague this leagueId
  | CallGetRosters leagueId => getRosters this leagueId
  | CallGetUsersInLeague leagueId => getUsersInLeague this leagueId
  | CallGetMatchups leagueId week => getMatchups this leagueId week
  | CallGetWinnersBracket leagueId => getWinnersBracket this leagueId
  | CallGetLosersBracket leagueId => getLosersBracket this leagueId
  | CallGetTransactions leagueId round => getTransactions this leagueId round
  | CallGetTradedPicks leagueId => getTradedPicks this leagueId
  | CallGetState sport => getState this sport
  | CallGetDraftsForUser userId sport season =>
      getDraftsForUser this userId sport season
  | CallGetDraftsForLeague leagueId => getDraftsForLeague this leagueId
  | CallGetDraft draftId => getDraft this draftId
  | CallGetPicksInDraft draftId => getPicksInDraft this draftId
  | CallGetTradedPicksInDraft draftId => getTradedPicksInDraft this draftId
  | CallGetAllPlayers sport => getAllPlayers this sport
  | CallGetTrendingPlayers sport type lookbackHours limit =>
      getTrendingPlayers this sport type lookbackHours limit
  end.

(* ===================================================================== *)
(** ** The specification's vocabulary *)
(* ===================================================================== *)

Module Spec.

(** A path template of the endpoint map is a sequence of segments, each
    written after a slash. *)
Fixpoint render (segments : list string) : string :=
  match segments with
  | [] => ""
  | [s] => "/" ++ s
  | s :: rest => "/" ++ s ++ render rest
  end.

Definition default {A : Type} (d : A) (o : option A) : A :=
  match o with Some a => a | None => d end.

(** The endpoint map: the path template of each accessor, filled with
    the arguments of the call; an omitted sport is ["nfl"]. *)
Definition endpoint_path (call : Invocation) : list string :=
  match call with
  | CallGetUserByUsername username => ["user"; username]
  | CallGetUserById userId => ["user"; userId]
  | CallGetLeaguesForUser userId sport season =>
      ["user"; userId; "leagues"; default "nfl" sport; season]
  | CallGetLeague leagueId => ["league"; leagueId]
  | CallGetRosters leagueId => ["league"; leagueId; "rosters"]
  | CallGetUsersInLeague leagueId => ["league"; leagueId; "users"]
  | CallGetMatchups leagueId week =>
      ["league"; leagueId; "matchups"; number_to_string week]
  | CallGetWinnersBracket leagueId => ["league"; leagueId; "winners_bracket"]
  | CallGetLosersBracket leagueId => ["league"; leagueId; "losers_bracket"]
  | CallGetTransactions leagueId round =>
      ["league"; leagueId; "transactions"; number_to_string round]
  | CallGetTradedPicks leagueId => ["league"; leagueId; "traded_picks"]
  | CallGetState sport => ["state"; sport]
  | CallGetDraftsForUser userId sport season =>
      ["user"; userId; "drafts"; default "nfl" sport; season]
  | CallGetDraftsForLeague leagueId => ["league"; leagueId; "drafts"]
  | CallGetDraft draftId => ["draft"; draftId]
  | CallGetPicksInDraft draftId => ["draft"; draftId; "picks"]
  | CallGetTradedPicksInDraft draftId => ["draft"; draftId; "traded_picks"]
  | CallGetAllPlayers sport => ["players"; default "nfl" sport]
  | CallGetTrendingPlayers sport type _ _ =>
      ["players"; sport; "trending"; TrendingType_text type]
  end.

(** The query parameters of the endpoint map: only the trending-players
    endpoint has any, [lookback_hours] (24 unless given) and [limit] (25
    unless given). *)
Definition endpoint_query (call : Invocation) : option AxiosRequestConfig :=
  match call with
  | CallGetTrendingPlayers _ _ lookbackHours limit =>
      Some {| params := [ ("lookback_hours", JsNumber (default 24 lookbackHours));
                          ("limit", JsNumber (default 25 limit)) ] |}
  | _ => None
  end.

(** The request an accessor is expected to make. *)
Definition expected_request (call : Invocation) : GetCall :=
  {| url := render (endpoint_path call); config := endpoint_query call |}.

(** The normalized message of each mapped status code. *)
Definition normalized_message (code : Z) : option string :=
  if code =? 400 then Some "Bad Request: Your request is invalid."
  else if code =? 404 then
    Some "Not Found: The requested resource could not be found."
  else if code =? 429 then
    Some "Too Many Requests: You are being rate limited."
  else if code =? 500 then
    Some "Internal Server Error: Problem with the server."
  else if code =? 503 then
    Some "Service Unavailable: The service is temporarily offline."
  else None.

(** The error taxonomy: the errors a caller is meant to receive. *)
Inductive Normalized : Exception -> Prop :=
| InvalidRequest :
    Normalized (JsError "Bad Request: Your request is invalid.")
| NotFound :
    Normalized (JsError "Not Found: The requested resource could not be found.")
| RateLimited :
    Normalized (JsError "Too Many Requests: You are being rate limited.")
| ServerError :
    Normalized (JsError "Internal Server Error: Problem with the server.")
| ServiceUnavailable :
    Normalized (JsError "Service Unavailable: The service is temporarily offline.")
| UnexpectedStatus (code : Z) :
    Normalized (JsError ("Unexpected Error: " ++ number_to_string code))
| NoResponse :
    Normalized (JsError "No response received from the server.")
| TransportError (message : string) :
    Normalized (JsError ("Axios Error: " ++ message))
| UnknownError (message : string) :
    Normalized (JsError ("Unexpected Error: " ++ message)).

(** The four branches of the classification policy. *)
Inductive Branch : Type :=
| StatusCodeMap
| NoResponseReceived
| TransportMessage
| Unknown.

End Spec.

Import Spec.

(** Which branch of [handleError] a failure reaches, read off the
    conditions of its [if] statements. *)
Inductive Reaches (error : Value) : Branch -> Prop :=
| reaches_status response :
    isAxiosError error = true ->
    get error "response" = Normal response ->
    truthy response = true ->
    Reaches error StatusCodeMap
| reaches_no_response response request :
    isAxiosError error = true ->
    get error "response" = Normal response ->
    truthy response = false ->
    get error "request" = Normal request ->
    truthy request = true ->
    Reaches error NoResponseReceived
| reaches_transport_message response request :
    isAxiosError error = true ->
    get error "response" = Normal response ->
    truthy response = false ->
    get error "request" = Normal request ->
    truthy request = false ->
    Reaches error TransportMessage
| reaches_unknown :
    isAxiosError error = false ->
    Reaches error Unknown.

(** What each branch does once reached. *)
Definition branch_body (branch : Branch) (error : Value) : Completion Value :=
  match branch with
  | StatusCodeMap =>
      response <- get error "response" ;;
      status <- get response "status" ;;
      switch_status status
  | NoResponseReceived =>
      Throw (JsError "No response received from the server.")
  | TransportMessage =>
      message <- get error "message" ;;
      s <- to_string message ;;
      Throw (JsError ("Axios Error: " ++ s))
  | Unknown =>
      message <- get error "message" ;;
      s <- to_string message ;;
      Throw (JsError ("Unexpected Error: " ++ s))
  end.

(* ===================================================================== *)
(** ** Fixtures *)
(* ===================================================================== *)

(** The failures and responses of [tests/SleeperAPI.test.ts], without
    their [toJSON] member, and a few more. *)
Module Fixtures.

(** A transport whose [get] always settles the same way. *)
Definition always (outcome : Outcome) : AxiosInstance := fun _ => outcome.

(** A client built around a transport that is passed in. *)
Definition client (instance : AxiosInstance) : SleeperAPI :=
  new_SleeperAPI (fun _ => instance) (Some instance).

Definition status_response (code : Z) (text : string) : Value :=
  JsObject [ ("status", JsNumber code); ("statusText", JsString text);
             ("data", JsObject []); ("headers", JsObject []);
             ("config", JsObject []) ].

(** An axios error whose response has the given status. *)
Definition status_error (code : Z) (text : string) : Value :=
  JsObject [ ("response", status_response code text);
             ("isAxiosError", JsBool true) ].

(** The request went out and nothing came back. *)
Definition no_response_error : Value :=
  JsObject [ ("request", JsObject []); ("isAxiosError", JsBool true) ].

(** An axios error that has a message only. *)
Definition network_error : Value :=
  JsObject [ ("message", JsString "Network Error");
             ("isAxiosError", JsBool true) ].

(** [new Error("Unexpected Error")]. *)
Definition plain_error : Value :=
  JsObject [ ("message", JsString "Unexpected Error") ].

(** A failure that carries a response with a status code, and a message,
    but is not marked as an axios error. *)
Definition unmarked_response : Value := status_response 404 "Not Found".

Definition unmarked_404 : Value :=
  JsObject [ ("response", unmarked_response);
             ("message", JsString "Request failed with status code 404") ].

(** The same without a message, for a status that no case maps. *)
Definition unmarked_418 : Value :=
  JsObject [ ("response", status_response 418 "I'm a teapot") ].

Definition mockUser : Value :=
  JsObject [ ("username", JsString "sleeperuser");
             ("user_id", JsString "12345678");
             ("display_name", JsString "SleeperUser");
             ("avatar", JsString "cc12ec49965eb7856f84d71cf85306af") ].

Definition ok_response (body : Value) : AxiosResponse :=
  {| data := body; status := 200; statusText := "OK";
     headers := JsObject [] |}.

End Fixtures.

Import Fixtures.

(* ===================================================================== *)
(** ** Reading a request path back *)
(* ===================================================================== *)

(** What is needed to say when a path can be taken apart again, and which
    values a template literal renders without failing. *)
Module Paths.

(** Whether a slash occurs in [s]. *)
Fixpoint has_slash (s : string) : bool :=
  match s with
  | EmptyString => false
  | String c rest => if Ascii.eqb c "/" then true else has_slash rest
  end.

(** [s.split("/")]: the pieces of [s] between its slashes. *)
Fixpoint split_slash (s : string) : list string :=
  match s with
  | EmptyString => [""]
  | String c rest =>
      if Ascii.eqb c "/" then "" :: split_slash rest
      else match split_slash rest with
           | piece :: pieces => String c piece :: pieces
           | [] => [String c ""]
           end
  end.

(** The string arguments an accessor call was given. *)
Definition identifiers (call : Invocation) : list string :=
  let optional (o : option string) :=
    match o with Some s => [s] | None => [] end in
  match call with
  | CallGetUserByUsername username => [username]
  | CallGetUserById userId => [userId]
  | CallGetLeaguesForUser userId sport season =>
      userId :: optional sport ++ [season]
  | CallGetLeague leagueId
  | CallGetRosters leagueId
  | CallGetUsersInLeague leagueId
  | CallGetMatchups leagueId _
  | CallGetWinnersBracket leagueId
  | CallGetLosersBracket leagueId
  | CallGetTransactions leagueId _
  | CallGetTradedPicks leagueId
  | CallGetDraftsForLeague leagueId => [leagueId]
  | CallGetState sport => [sport]
  | CallGetDraftsForUser userId sport season =>
      userId :: optional sport ++ [season]
  | CallGetDraft draftId
  | CallGetPicksInDraft draftId
  | CallGetTradedPicksInDraft draftId => [draftId]
  | CallGetAllPlayers sport => optional sport
  | CallGetTrendingPlayers sport _ _ _ => [sport]
  end%list.

(** No string argument of the call contains a slash. *)
Definition slash_free (call : Invocation) : bool :=
  forallb (fun s => negb (has_slash s)) (identifiers call).

(** The values that are not objects (arrays included). *)
Definition is_primitive (v : Value) : bool :=
  match v with
  | JsArray _ | JsObject _ => false
  | _ => true
  end.

End Paths.

Import Paths.

(* ===================================================================== *)
(** ** Reading members and sequencing completions *)
(* ===================================================================== *)

(** Splits on the first test of a chain of conditionals, closing the
    branch where the test holds with [tac]. *)
Ltac first_case tac :=
  match goal with
  | |- context [if ?c then _ else _] => destruct c; [tac |]
  end.

Lemma bind_Normal_inv {A B : Type} (c : Completion A) (k : A -> Completion B)
  (b : B) :
  bind c k = Normal b -> exists a, c = Normal a /\ k a = Normal b.
Proof.
  destruct c as [a | x]; simpl; intros H.
  - exists a. split; [reflexivity | exact H].
  - discriminate H.
Qed.

Lemma isAxiosError_object (error : Value) :
  isAxiosError error = true -> exists members, error = JsObject members.
Proof.
  destruct error; simpl; try discriminate.
  intros _. eexists. reflexivity.
Qed.

Lemma get_object_Normal (members : list (string * Value)) (property : string) :
  exists v, get (JsObject members) property = Normal v.
Proof.
  simpl. destruct (lookup property members) as [v |]; eexists; reflexivity.
Qed.

Lemma get_truthy_Normal (base : Value) (property : string) :
  truthy base = true -> exists v, get base property = Normal v.
Proof.
  destruct base; simpl; try discriminate; intros _;
    try (eexists; reflexivity).
  apply get_object_Normal.
Qed.

(** Only an object answers a read with something other than
    [undefined]. *)
Lemma get_number_truthy (base : Value) (property : string) (n : Z) :
  get base property = Normal (JsNumber n) -> truthy base = true.
Proof.
  destruct base; simpl; try discriminate; reflexivity.
Qed.

(* ===================================================================== *)
(** ** The branches of [handleError] *)
(* ===================================================================== *)

Lemma handleError_by_branch (error : Value) (branch : Branch) :
  Reaches error branch -> handleError error = branch_body branch error.
Proof.
  intros [response Hax Hresp Ht
         | response request Hax Hresp Ht Hreq Hq
         | response request Hax Hresp Ht Hreq Hq
         | Hax];
    unfold handleError, branch_body; rewrite Hax;
    try reflexivity;
    rewrite Hresp; simpl; rewrite Ht; try reflexivity;
    rewrite Hreq; simpl; rewrite Hq; reflexivity.
Qed.

(** Every failure reaches a branch. *)
Lemma Reaches_total (error : Value) : exists branch, Reaches error branch.
Proof.
  destruct (isAxiosError error) eqn:Hax.
  - destruct (isAxiosError_object error Hax) as [members ->].
    destruct (get_object_Normal members "response") as [response Hresp].
    destruct (get_object_Normal members "request") as [request Hreq].
    destruct (truthy response) eqn:Ht.
    + exists StatusCodeMap. eapply reaches_status; eassumption.
    + destruct (truthy request) eqn:Hq.
      * exists NoResponseReceived. eapply reaches_no_response; eassumption.
      * exists TransportMessage. eapply reaches_transport_message; eassumption.
  - exists Unknown. apply reaches_unknown. exact Hax.
Qed.



Lemma switch_status_never_returns (status v : Value) :
  switch_status status <> Normal v.
Proof.
  unfold switch_status. repeat first_case discriminate.
  intros H. apply bind_Normal_inv in H as (s & _ & H). discriminate H.
Qed.

(** [handleError] never returns: whatever the failure, its completion is
    a [throw]. *)
Lemma handleError_never_returns (error v : Value) :
  handleError error <> Normal v.
Proof.
  destruct (Reaches_total error) as [branch Hb].
  rewrite (handleError_by_branch error branch Hb).
  destruct branch; simpl; intros H.
  - apply bind_Normal_inv in H as (response & _ & H).
    apply bind_Normal_inv in H as (status & _ & H).
    exact (switch_status_never_returns status v H).
  - discriminate H.
  - apply bind_Normal_inv in H as (message & _ & H).
    apply bind_Normal_inv in H as (s & _ & H). discriminate H.
  - apply bind_Normal_inv in H as (message & _ & H).
    apply bind_Normal_inv in H as (s & _ & H). discriminate H.
Qed.

Lemma handleError_throws (error : Value) :
  exists reason, handleError error = Throw reason.
Proof.
  destruct (handleError error) as [v | reason] eqn:H.
  - exfalso. exact (handleError_never_returns error v H).
  - exists reason. reflexivity.
Qed.

(** The thrown value is one of the taxonomy unless the engine raised a
    [TypeError] on the way. *)
Lemma join_Throw (render : Value -> Completion string)
  (items : list Value) (x : Exception) :
  Forall (fun v => forall e, render v = Throw e ->
                             exists cause, e = JsTypeError cause) items ->
  join render items = Throw x -> exists cause, x = JsTypeError cause.
Proof.
  induction 1 as [| y rest Hy _ IHrest]; simpl; [discriminate |].
  destruct (render_element render y) as [s | e] eqn:Hs; simpl.
  - destruct rest as [| z rest']; [discriminate |].
    destruct (join render (z :: rest')) as [r | e] eqn:Hr; simpl;
      [discriminate |].
    intros H. injection H as <-. apply IHrest. reflexivity.
  - intros H. injection H as <-.
    destruct y; simpl in Hs; try discriminate Hs; exact (Hy _ Hs).
Qed.

Lemma to_string_Throw (v : Value) :
  forall x : Exception,
    to_string v = Throw x -> exists cause, x = JsTypeError cause.
Proof.
  induction v as [ | | [|] | n | s | items IH | members ]
    using Value_induction; simpl; try discriminate.
  - intros x. apply join_Throw. exact IH.
  - intros x. destruct (lookup "toString" members); [| discriminate].
    intros H. injection H as <-. eexists. reflexivity.
Qed.

Lemma switch_status_Throw (status : Value) (reason : Exception) :
  switch_status status = Throw reason ->
  Normalized reason \/ exists cause, reason = JsTypeError cause.
Proof.
  unfold switch_status.
  repeat first_case ltac:(intros H; injection H as <-; left; constructor).
  destruct (to_string status) as [s | e] eqn:Hs; simpl; intros H;
    injection H as <-.
  - left. apply UnknownError.
  - right. exact (to_string_Throw status e Hs).
Qed.

Lemma get_Throw (base : Value) (property : string) (x : Exception) :
  get base property = Throw x -> exists cause, x = JsTypeError cause.
Proof.
  destruct base; simpl; try discriminate;
    try (intros H; injection H as <-; eexists; reflexivity).
  destruct (lookup property members); discriminate.
Qed.

Lemma get_Throw_nullish (base : Value) (property : string) (x : Exception) :
  get base property = Throw x ->
  x = JsTypeError (ReadOfNullish base property) /\
  (base = JsUndefined \/ base = JsNull).
Proof.
  destruct base; simpl; try discriminate.
  - intros H. injection H as <-. split; [reflexivity | left; reflexivity].
  - intros H. injection H as <-. split; [reflexivity | right; reflexivity].
  - destruct (lookup property members); discriminate.
Qed.

Lemma handleError_Throw (error : Value) (reason : Exception) :
  handleError error = Throw reason ->
  Normalized reason \/ exists cause, reason = JsTypeError cause.
Proof.
  destruct (Reaches_total error) as [branch Hb].
  rewrite (handleError_by_branch error branch Hb).
  destruct branch; simpl.
  - destruct (get error "response") as [response | e] eqn:Hr; simpl;
      [| intros H; injection H as <-; right; exact (get_Throw _ _ _ Hr)].
    destruct (get response "status") as [status | e] eqn:Hs; simpl;
      [| intros H; injection H as <-; right; exact (get_Throw _ _ _ Hs)].
    apply switch_status_Throw.
  - intros H; injection H as <-. left. constructor.
  - destruct (get error "message") as [message | e] eqn:Hm; simpl;
      [| intros H; injection H as <-; right; exact (get_Throw _ _ _ Hm)].
    destruct (to_string message) as [s | e] eqn:Hs; simpl;
      intros H; injection H as <-.
    + left. apply TransportError.
    + right. exact (to_string_Throw _ _ Hs).
  - destruct (get error "message") as [message | e] eqn:Hm; simpl;
      [| intros H; injection H as <-; right; exact (get_Throw _ _ _ Hm)].
    destruct (to_string message) as [s | e] eqn:Hs; simpl;
      intros H; injection H as <-.
    + left. apply UnknownError.
    + right. exact (to_string_Throw _ _ Hs).
Qed.

(* ===================================================================== *)
(** ** The accessors and the transport *)
(* ===================================================================== *)

(** Every accessor makes the request of the endpoint map, through the
    common body. *)
Lemma invoke_expected_request (this : SleeperAPI) (call : Invocation) :
  invoke this call = try_get this (expected_request call).
Proof.
  destruct call; try reflexivity.
Qed.

Lemma try_get_Resolves (this : SleeperAPI) (call : GetCall)
  (response : AxiosResponse) (calls : list GetCall) :
  axiosInstance this call = Resolves response ->
  try_get this call calls = (Fulfilled (data response), (calls ++ [call])%list).
Proof.
  intros H. unfold try_get. rewrite H. reflexivity.
Qed.

Lemma try_get_Rejects (this : SleeperAPI) (call : GetCall)
  (error : Value) (reason : Exception) (calls : list GetCall) :
  axiosInstance this call = Rejects error ->
  handleError error = Throw reason ->
  try_get this call calls = (Rejected reason, (calls ++ [call])%list).
Proof.
  intros H Hh. unfold try_get. rewrite H, Hh. reflexivity.
Qed.

(** Whatever the transport does, an accessor calls it once. *)
Lemma invoke_calls_once (this : SleeperAPI) (call : Invocation)
  (calls : list GetCall) :
  snd (invoke this call calls) = (calls ++ [expected_request call])%list.
Proof.
  rewrite invoke_expected_request. unfold try_get.
  destruct (axiosInstance this (expected_request call)) as [response | error];
    [reflexivity |].
  destruct (handleError error); reflexivity.
Qed.

(** On a failure of the transport an accessor rejects; it does not
    resolve. *)
Lemma invoke_Rejects (this : SleeperAPI) (call : Invocation)
  (error : Value) (calls : list GetCall) :
  axiosInstance this (expected_request call) = Rejects error ->
  exists reason,
    handleError error = Throw reason /\
    invoke this call calls
    = (Rejected reason, (calls ++ [expected_request call])%list).
Proof.
  intros H. destruct (handleError_throws error) as [reason Hh].
  exists reason. split; [exact Hh |].
  rewrite invoke_expected_request. exact (try_get_Rejects _ _ _ _ _ H Hh).
Qed.

(* ===================================================================== *)
(** ** The avatar URL utility *)
(* ===================================================================== *)

(** C9: [getAvatarUrl] is a function of its two arguments alone: with
    the thumbnail flag false (or omitted) it returns
    "https://sleepercdn.com/avatars/" followed by the identifier, with
    the flag true "https://sleepercdn.com/avatars/thumbs/" followed by
    the identifier; "abc123" gives the two URLs of the specification. *)
Theorem getAvatarUrl_spec (avatar_id : string) :
  getAvatarUrl avatar_id (Some false)
    = "https://sleepercdn.com/avatars/" ++ avatar_id /\
  getAvatarUrl avatar_id None
    = "https://sleepercdn.com/avatars/" ++ avatar_id /\
  getAvatarUrl avatar_id (Some true)
    = "https://sleepercdn.com/avatars/thumbs/" ++ avatar_id /\
  getAvatarUrl "abc123" (Some false)
    = "https://sleepercdn.com/avatars/abc123" /\
  getAvatarUrl "abc123" (Some true)
    = "https://sleepercdn.com/avatars/thumbs/abc123".
Proof.
  repeat split; reflexivity.
Qed.

(* ===================================================================== *)
(** ** Successful calls *)
(* ===================================================================== *)

(** C2: for every accessor and every argument list, when the transport
    resolves the request of the endpoint map (path, and query parameters
    for the trending players) with a response, the promise of the
    accessor is fulfilled with the [data] of that response, unchanged,
    and the transport has received exactly that one call more. *)
Theorem accessor_resolves_with_body (this : SleeperAPI) (call : Invocation)
  (response : AxiosResponse) (calls : list GetCall) :
  axiosInstance this (expected_request call) = Resolves response ->
  invoke this call calls
  = (Fulfilled (data response), (calls ++ [expected_request call])%list).
Proof.
  intros H. rewrite invoke_expected_request.
  apply try_get_Resolves. exact H.
Qed.

Lemma accessor_resolves_with_body_witness :
  axiosInstance (client (always (Resolves (ok_response mockUser))))
    (expected_request (CallGetUserByUsername "sleeperuser"))
  = Resolves (ok_response mockUser) /\
  invoke (client (always (Resolves (ok_response mockUser))))
    (CallGetUserByUsername "sleeperuser") []
  = (Fulfilled mockUser, [path "/user/sleeperuser"]).
Proof.
  split; [reflexivity |].
  apply (accessor_resolves_with_body
           (client (always (Resolves (ok_response mockUser))))
           (CallGetUserByUsername "sleeperuser")
           (ok_response mockUser) []).
  reflexivity.
Defined.

(** C8: called with a sport and a type only, [getTrendingPlayers] sends
    its one request to /players/{sport}/trending/{type} with the query
    parameters [lookback_hours] = 24 and [limit] = 25. *)
Theorem getTrendingPlayers_default_query (this : SleeperAPI) (sport : string)
  (type : TrendingType) (calls : list GetCall) :
  snd (getTrendingPlayers this sport type None None calls)
  = (calls ++
     [ {| url := "/players/" ++ sport ++ "/trending/" ++ TrendingType_text type;
          config := Some {| params := [ ("lookback_hours", JsNumber 24);
                                        ("limit", JsNumber 25) ] |} |} ])%list.
Proof.
  exact (invoke_calls_once this
           (CallGetTrendingPlayers sport type None None) calls).
Qed.

(* ===================================================================== *)
(** ** The error translator *)
(* ===================================================================== *)

(** C1, as stated, fails: the response of [unmarked_404] carries the
    status code 404, whose normalized message is "Not Found: ...", but
    the failure is not marked as an axios error; [handleError] throws an
    [Error] with another message, and so does an accessor whose
    transport rejects with it. *)
Lemma unmarked_404_not_translated :
  get unmarked_404 "response" = Normal unmarked_response /\
  get unmarked_response "status" = Normal (JsNumber 404) /\
  normalized_message 404
  = Some "Not Found: The requested resource could not be found." /\
  handleError unmarked_404
  <> Throw (JsError "Not Found: The requested resource could not be found.") /\
  getUserByUsername (client (always (Rejects unmarked_404)))
    "nonexistentuser" []
  = (Rejected
       (JsError "Unexpected Error: Request failed with status code 404"),
     [path "/user/nonexistentuser"]) /\
  ~ (forall (error response : Value) (code : Z) (message : string),
        get error "response" = Normal response ->
        get response "status" = Normal (JsNumber code) ->
        normalized_message code = Some message ->
        handleError error = Throw (JsError message)).
Proof.
  split; [reflexivity |]. split; [reflexivity |]. split; [reflexivity |].
  split; [discriminate |]. split; [reflexivity |].
  intros H.
  specialize (H unmarked_404 unmarked_response 404
                "Not Found: The requested resource could not be found."
                eq_refl eq_refl eq_refl).
  discriminate H.
Qed.

(** C1, amended: when the failure is classified as an axios error and
    its response carries one of the status codes 400, 404, 429, 500 and
    503, [handleError] throws an [Error] with exactly the normalized
    message of that code, and every accessor whose transport rejects
    with that failure is rejected with the same error. *)
Theorem handleError_mapped_status (error response : Value) (code : Z)
  (message : string) :
  isAxiosError error = true ->
  get error "response" = Normal response ->
  get response "status" = Normal (JsNumber code) ->
  normalized_message code = Some message ->
  handleError error = Throw (JsError message) /\
  forall (this : SleeperAPI) (call : Invocation) (calls : list GetCall),
    axiosInstance this (expected_request call) = Rejects error ->
    invoke this call calls
    = (Rejected (JsError message), (calls ++ [expected_request call])%list).
Proof.
  intros Hax Hresp Hstatus Hmsg.
  assert (Hh : handleError error = Throw (JsError message)).
  { pose proof (get_number_truthy _ _ _ Hstatus) as Ht.
    rewrite (handleError_by_branch error StatusCodeMap
               (reaches_status error response Hax Hresp Ht)).
    simpl. rewrite Hresp. simpl. rewrite Hstatus. simpl.
    unfold switch_status, strict_equals_number.
    unfold normalized_message in Hmsg.
    repeat first_case ltac:(injection Hmsg as <-; reflexivity).
    discriminate Hmsg. }
  split; [exact Hh |].
  intros this call calls H. rewrite invoke_expected_request.
  exact (try_get_Rejects _ _ _ _ _ H Hh).
Qed.

Lemma handleError_mapped_status_witness :
  isAxiosError (status_error 404 "Not Found") = true /\
  get (status_error 404 "Not Found") "response"
    = Normal (status_response 404 "Not Found") /\
  get (status_response 404 "Not Found") "status" = Normal (JsNumber 404) /\
  handleError (status_error 404 "Not Found")
    = Throw (JsError "Not Found: The requested resource could not be found.").
Proof.
  split; [reflexivity |]. split; [reflexivity |]. split; [reflexivity |].
  apply (handleError_mapped_status (status_error 404 "Not Found")
           (status_response 404 "Not Found") 404
           "Not Found: The requested resource could not be found.");
    reflexivity.
Defined.

(** C5, as stated, fails: the response of [unmarked_418] carries the
    status code 418, which is none of the mapped codes, but the failure
    is not marked as an axios error; the message of the [Error] that
    [handleError] throws does not contain the code. *)
Lemma unmarked_418_not_reported :
  get unmarked_418 "response" = Normal (status_response 418 "I'm a teapot") /\
  get (status_response 418 "I'm a teapot") "status" = Normal (JsNumber 418) /\
  normalized_message 418 = None /\
  handleError unmarked_418 = Throw (JsError "Unexpected Error: undefined") /\
  handleError unmarked_418 <> Throw (JsError "Unexpected Error: 418").
Proof.
  split; [reflexivity |]. split; [reflexivity |]. split; [reflexivity |].
  split; [reflexivity | discriminate].
Qed.

(** C5, amended: when the failure is classified as an axios error and
    its response carries a status code outside 400, 404, 429, 500 and
    503 (418, say), [handleError] throws an [Error] whose message is
    "Unexpected Error: " followed by that code.  The code is an integer
    that a Number holds exactly (at most 2^53 - 1 in magnitude), as
    every HTTP status code is; it is then printed with all its
    digits. *)
Theorem handleError_unmapped_status (error response : Value) (code : Z) :
  isAxiosError error = true ->
  get error "response" = Normal response ->
  get response "status" = Normal (JsNumber code) ->
  Z.abs code <= 9007199254740991 ->
  normalized_message code = None ->
  handleError error
  = Throw (JsError ("Unexpected Error: " ++ number_to_string code)).
Proof.
  intros Hax Hresp Hstatus _ Hmsg.
  pose proof (get_number_truthy _ _ _ Hstatus) as Ht.
  rewrite (handleError_by_branch error StatusCodeMap
             (reaches_status error response Hax Hresp Ht)).
  simpl. rewrite Hresp. simpl. rewrite Hstatus. simpl.
  unfold switch_status, strict_equals_number.
  unfold normalized_message in Hmsg.
  repeat first_case ltac:(discriminate Hmsg).
  reflexivity.
Qed.

Lemma handleError_unmapped_status_witness :
  isAxiosError (status_error 418 "I'm a teapot") = true /\
  Z.abs 418 <= 9007199254740991 /\
  normalized_message 418 = None /\
  handleError (status_error 418 "I'm a teapot")
    = Throw (JsError "Unexpected Error: 418").
Proof.
  split; [reflexivity |]. split; [lia |]. split; [reflexivity |].
  apply (handleError_unmapped_status (status_error 418 "I'm a teapot")
           (status_response 418 "I'm a teapot") 418);
    solve [reflexivity | lia].
Defined.

(** C6: when the failure is an axios error with a request and no
    response, [handleError] throws an [Error] whose message is exactly
    "No response received from the server." *)
Theorem handleError_no_response (error response request : Value) :
  isAxiosError error = true ->
  get error "response" = Normal response ->
  truthy response = false ->
  get error "request" = Normal request ->
  truthy request = true ->
  handleError error = Throw (JsError "No response received from the server.").
Proof.
  intros Hax Hresp Ht Hreq Hq.
  exact (handleError_by_branch error NoResponseReceived
           (reaches_no_response error response request Hax Hresp Ht Hreq Hq)).
Qed.

Lemma handleError_no_response_witness :
  isAxiosError no_response_error = true /\
  get no_response_error "response" = Normal JsUndefined /\
  get no_response_error "request" = Normal (JsObject []) /\
  handleError no_response_error
    = Throw (JsError "No response received from the server.").
Proof.
  split; [reflexivity |]. split; [reflexivity |]. split; [reflexivity |].
  apply (handleError_no_response no_response_error JsUndefined (JsObject []));
    reflexivity.
Defined.

(** C7: when the failure is an axios error with neither a response nor a
    request, and a message, [handleError] throws an [Error] whose
    message is "Axios Error: " followed by that message. *)
Theorem handleError_transport_message (error response request : Value)
  (message : string) :
  isAxiosError error = true ->
  get error "response" = Normal response ->
  truthy response = false ->
  get error "request" = Normal request ->
  truthy request = false ->
  get error "message" = Normal (JsString message) ->
  handleError error = Throw (JsError ("Axios Error: " ++ message)).
Proof.
  intros Hax Hresp Ht Hreq Hq Hm.
  rewrite (handleError_by_branch error TransportMessage
             (reaches_transport_message error response request
                Hax Hresp Ht Hreq Hq)).
  simpl. rewrite Hm. reflexivity.
Qed.

Lemma handleError_transport_message_witness :
  isAxiosError network_error = true /\
  get network_error "response" = Normal JsUndefined /\
  get network_error "request" = Normal JsUndefined /\
  get network_error "message" = Normal (JsString "Network Error") /\
  handleError network_error = Throw (JsError "Axios Error: Network Error").
Proof.
  split; [reflexivity |]. split; [reflexivity |].
  split; [reflexivity |]. split; [reflexivity |].
  apply (handleError_transport_message network_error JsUndefined JsUndefined
           "Network Error");
    reflexivity.
Defined.

(** When the failure is not an axios error and reading its [message]
    yields [undefined], [handleError] throws an [Error] whose message is
    exactly "Unexpected Error: undefined". *)
Lemma handleError_missing_message (error : Value) :
  isAxiosError error = false ->
  get error "message" = Normal JsUndefined ->
  handleError error = Throw (JsError "Unexpected Error: undefined").
Proof.
  intros Hax Hm.
  rewrite (handleError_by_branch error Unknown (reaches_unknown error Hax)).
  simpl. rewrite Hm. reflexivity.
Qed.

Lemma handleError_missing_message_witness :
  isAxiosError (JsObject [ ("code", JsString "ERR_BAD_OPTION") ]) = false /\
  get (JsObject [ ("code", JsString "ERR_BAD_OPTION") ]) "message"
    = Normal JsUndefined /\
  handleError (JsObject [ ("code", JsString "ERR_BAD_OPTION") ])
    = Throw (JsError "Unexpected Error: undefined").
Proof.
  split; [reflexivity |]. split; [reflexivity |].
  apply (handleError_missing_message
           (JsObject [ ("code", JsString "ERR_BAD_OPTION") ]));
    reflexivity.
Defined.

(** C10, at the failures [undefined] and [null]: neither is an axios
    error and neither carries a message, but [handleError] does not
    throw an [Error] with the message "Unexpected Error: undefined";
    the read of [error.message] makes the engine raise a [TypeError].
    For every other failure that is not an axios error and whose
    message reads as [undefined], that [Error] is what is thrown. *)
Theorem handleError_nullish_has_no_placeholder :
  isAxiosError JsUndefined = false /\
  isAxiosError JsNull = false /\
  handleError JsUndefined
  <> Throw (JsError "Unexpected Error: undefined") /\
  handleError JsNull <> Throw (JsError "Unexpected Error: undefined") /\
  (forall error,
      isAxiosError error = false ->
      handleError error = Throw (JsError "Unexpected Error: undefined") \/
      handleError error
      = Throw (JsTypeError (ReadOfNullish error "message")) \/
      exists message,
        get error "message" = Normal message /\ message <> JsUndefined).
Proof.
  split; [reflexivity |]. split; [reflexivity |].
  split; [discriminate |]. split; [discriminate |].
  intros error Hax.
  destruct (get error "message") as [message | x] eqn:Hm.
  - destruct message;
      try (right; right; eexists; split; [reflexivity | discriminate]).
    left. exact (handleError_missing_message error Hax Hm).
  - right. left.
    rewrite (handleError_by_branch error Unknown (reaches_unknown error Hax)).
    simpl. rewrite Hm. simpl.
    destruct (get_Throw_nullish error "message" x Hm) as [-> _].
    reflexivity.
Qed.




(** C3, at the failure [undefined] (and [null]): [handleError] does not
    throw one of the normalized errors; reading [error.message] in its
    last branch makes the engine raise a [TypeError], and an accessor
    whose transport rejects with [undefined] is rejected with that
    [TypeError]. *)
Theorem handleError_nullish_failure :
  handleError JsUndefined
    = Throw (JsTypeError (ReadOfNullish JsUndefined "message")) /\
  handleError JsNull
    = Throw (JsTypeError (ReadOfNullish JsNull "message")) /\
  Reaches JsUndefined Unknown /\
  (forall base property,
      ~ Normalized (JsTypeError (ReadOfNullish base property))) /\
  (forall (call : Invocation) (calls : list GetCall),
      invoke (client (always (Rejects JsUndefined))) call calls
      = (Rejected (JsTypeError (ReadOfNullish JsUndefined "message")),
         (calls ++ [expected_request call])%list)).
Proof.
  split; [reflexivity |]. split; [reflexivity |].
  split; [apply reaches_unknown; reflexivity |].
  split.
  - intros base property H. inversion H.
  - intros call calls. rewrite invoke_expected_request. reflexivity.
Qed.

(* ===================================================================== *)
(** ** The test suite *)
(* ===================================================================== *)

(** The expectations of [tests/SleeperAPI.test.ts] on failures hold of
    the embedding. *)

Example test_user_not_found :
  getUserByUsername (client (always (Rejects (status_error 404 "Not Found"))))
    "nonexistentuser" []
  = (Rejected (JsError "Not Found: The requested resource could not be found."),
     [path "/user/nonexistentuser"]).
Proof. reflexivity. Qed.

Example test_league_server_error :
  getLeague
    (client (always (Rejects (status_error 500 "Internal Server Error"))))
    "289646328504385536" []
  = (Rejected (JsError "Internal Server Error: Problem with the server."),
     [path "/league/289646328504385536"]).
Proof. reflexivity. Qed.

Example test_rosters_rate_limited :
  getRosters
    (client (always (Rejects (status_error 429 "Too Many Requests"))))
    "289646328504385536" []
  = (Rejected (JsError "Too Many Requests: You are being rate limited."),
     [path "/league/289646328504385536/rosters"]).
Proof. reflexivity. Qed.

Example test_users_bad_request :
  getUsersInLeague (client (always (Rejects (status_error 400 "Bad Request"))))
    "invalidLeagueId" []
  = (Rejected (JsError "Bad Request: Your request is invalid."),
     [path "/league/invalidLeagueId/users"]).
Proof. reflexivity. Qed.

Example test_matchups_no_response :
  getMatchups (client (always (Rejects no_response_error)))
    "289646328504385536" 1 []
  = (Rejected (JsError "No response received from the server."),
     [path "/league/289646328504385536/matchups/1"]).
Proof. reflexivity. Qed.

Example test_bracket_unavailable :
  getWinnersBracket
    (client (always (Rejects (status_error 503 "Service Unavailable"))))
    "289646328504385536" []
  = (Rejected (JsError "Service Unavailable: The service is temporarily offline."),
     [path "/league/289646328504385536/winners_bracket"]).
Proof. reflexivity. Qed.

Example test_state_network_error :
  getState (client (always (Rejects network_error))) "nfl" []
  = (Rejected (JsError "Axios Error: Network Error"), [path "/state/nfl"]).
Proof. reflexivity. Qed.

Example test_draft_unexpected_error :
  getDraft (client (always (Rejects plain_error))) "257270643320426496" []
  = (Rejected (JsError "Unexpected Error: Unexpected Error"),
     [path "/draft/257270643320426496"]).
Proof. reflexivity. Qed.

Example test_trending_players :
  getTrendingPlayers
    (client (always (Resolves (ok_response
       (JsArray [ JsObject [ ("player_id", JsString "1111");
                             ("count", JsNumber 45) ] ])))))
    "nfl" add None None []
  = (Fulfilled (JsArray [ JsObject [ ("player_id", JsString "1111");
                                     ("count", JsNumber 45) ] ]),
     [ {| url := "/players/nfl/trending/add";
          config := Some {| params := [ ("lookback_hours", JsNumber 24);
                                        ("limit", JsNumber 25) ] |} |} ]).
Proof. reflexivity. Qed.

(** A primitive that is thrown has no [message] either. *)
Remark handleError_thrown_string :
  handleError (JsString "boom") = Throw (JsError "Unexpected Error: undefined").
Proof. reflexivity. Qed.

(* ===================================================================== *)
(** ** Further properties of the error translator *)
(* ===================================================================== *)

Lemma join_Throw_cause (P : Exception -> Prop)
  (render : Value -> Completion string) (items : list Value) (x : Exception) :
  Forall (fun v => forall e, render v = Throw e -> P e) items ->
  join render items = Throw x -> P x.
Proof.
  induction 1 as [| y rest Hy _ IHrest]; simpl; [discriminate |].
  destruct (render_element render y) as [s | e] eqn:Hs; simpl.
  - destruct rest as [| z rest']; [discriminate |].
    destruct (join render (z :: rest')) as [r | e] eqn:Hr; simpl;
      [discriminate |].
    intros H. injection H as <-. apply IHrest. reflexivity.
  - intros H. injection H as <-.
    destruct y; simpl in Hs; try discriminate Hs; exact (Hy _ Hs).
Qed.

(** Rendering fails only on an object that has a [toString] member. *)
Lemma to_string_Throw_object (v : Value) :
  forall x : Exception,
    to_string v = Throw x ->
    exists members,
      x = JsTypeError (NotPrimitive (JsObject members)) /\
      lookup "toString" members <> None.
Proof.
  induction v as [ | | [|] | n | s | items IH | members ]
    using Value_induction; simpl; try discriminate.
  - intros x.
    exact (join_Throw_cause
             (fun e => exists members,
                  e = JsTypeError (NotPrimitive (JsObject members)) /\
                  lookup "toString" members <> None)
             to_string items x IH).
  - intros x. destruct (lookup "toString" members) eqn:Hl; [| discriminate].
    intros H. injection H as <-. exists members.
    split; [reflexivity | rewrite Hl; discriminate].
Qed.

Lemma to_string_primitive (v : Value) :
  is_primitive v = true -> exists s, to_string v = Normal s.
Proof.
  destruct v as [ | | [|] | n | s | items | members ]; simpl;
    try discriminate; intros _; eexists; reflexivity.
Qed.

Lemma switch_status_TypeError (status : Value) (cause : TypeErrorCause) :
  switch_status status = Throw (JsTypeError cause) ->
  to_string status = Throw (JsTypeError cause).
Proof.
  unfold switch_status. repeat first_case discriminate.
  destruct (to_string status) as [s | e]; simpl; [discriminate |].
  intros H. injection H as ->. reflexivity.
Qed.

(** Where a [TypeError] thrown by [handleError] comes from: the read of
    [message] on a failure that is [null] or [undefined], or the
    rendering of the message or of the status. *)
Lemma handleError_TypeError_inv (error : Value) (cause : TypeErrorCause) :
  handleError error = Throw (JsTypeError cause) ->
  (cause = ReadOfNullish error "message" /\
   (error = JsUndefined \/ error = JsNull)) \/
  (exists v,
      (get error "message" = Normal v \/
       exists response,
         get error "response" = Normal response /\
         get response "status" = Normal v) /\
      to_string v = Throw (JsTypeError cause)).
Proof.
  destruct (Reaches_total error) as [branch Hb].
  rewrite (handleError_by_branch error branch Hb).
  destruct Hb as [response Hax Hresp Ht
                 | response request Hax Hresp Ht Hreq Hq
                 | response request Hax Hresp Ht Hreq Hq
                 | Hax]; simpl.
  - rewrite Hresp. simpl.
    destruct (get_truthy_Normal response "status" Ht) as [status Hs].
    rewrite Hs. simpl. intros H. right. exists status. split.
    + right. exists response. split; [reflexivity | exact Hs].
    + exact (switch_status_TypeError status cause H).
  - discriminate.
  - destruct (isAxiosError_object error Hax) as [members ->].
    destruct (get_object_Normal members "message") as [message Hm].
    rewrite Hm. simpl.
    destruct (to_string message) as [s | e] eqn:Hs; simpl; [discriminate |].
    intros H. injection H as ->. right. exists message.
    split; [left; reflexivity | exact Hs].
  - destruct (get error "message") as [message | e] eqn:Hm; simpl.
    + destruct (to_string message) as [s | e] eqn:Hs; simpl; [discriminate |].
      intros H. injection H as ->. right. exists message.
      split; [left; reflexivity | exact Hs].
    + intros H. injection H as ->. left.
      destruct (get_Throw_nullish _ _ _ Hm) as [E Hn].
      injection E as ->. split; [reflexivity | exact Hn].
Qed.

(** X1: given a failure that is plain data (no accessor properties,
    functions or Symbols), [handleError] ends by throwing, and what it
    throws is an [Error] of the taxonomy or a [TypeError] of the
    engine. *)
Theorem handleError_always_throws (error : Value) :
  exists reason,
    handleError error = Throw reason /\
    (Normalized reason \/ exists cause, reason = JsTypeError cause).
Proof.
  destruct (handleError_throws error) as [reason H].
  exists reason. split; [exact H | exact (handleError_Throw error reason H)].
Qed.

(** X3: given a failure that is plain data, [handleError] throws a
    [TypeError] in two situations only: the failure is [null] or
    [undefined], and the read of its [message] raised; or the value to
    be put in the text (the message of the failure, or the status of its
    response) could not be rendered, because it is or contains an object
    with a [toString] member that is no function. *)
Theorem handleError_TypeError_causes (error : Value) (cause : TypeErrorCause) :
  handleError error = Throw (JsTypeError cause) ->
  (cause = ReadOfNullish error "message" /\
   (error = JsUndefined \/ error = JsNull)) \/
  (exists v members,
      (get error "message" = Normal v \/
       exists response,
         get error "response" = Normal response /\
         get response "status" = Normal v) /\
      to_string v = Throw (JsTypeError cause) /\
      cause = NotPrimitive (JsObject members) /\
      lookup "toString" members <> None).
Proof.
  intros H.
  destruct (handleError_TypeError_inv error cause H)
    as [Hn | (v & Hv & Hs)]; [left; exact Hn | right].
  destruct (to_string_Throw_object v _ Hs) as (members & E & Hl).
  injection E as E. exists v, members.
  split; [exact Hv | split; [exact Hs | split; [exact E | exact Hl]]].
Qed.

Lemma handleError_TypeError_causes_witness :
  handleError
    (JsObject [ ("message", JsObject [ ("toString", JsNumber 1) ]) ])
  = Throw (JsTypeError (NotPrimitive (JsObject [ ("toString", JsNumber 1) ]))) /\
  exists v members,
    to_string v
    = Throw (JsTypeError
               (NotPrimitive (JsObject [ ("toString", JsNumber 1) ]))) /\
    NotPrimitive (JsObject [ ("toString", JsNumber 1) ])
    = NotPrimitive (JsObject members) /\
    lookup "toString" members <> None.
Proof.
  split; [reflexivity |].
  destruct (handleError_TypeError_causes
              (JsObject [ ("message", JsObject [ ("toString", JsNumber 1) ]) ])
              (NotPrimitive (JsObject [ ("toString", JsNumber 1) ]))
              eq_refl)
    as [[E _] | (v & members & _ & Hs & E & Hl)]; [discriminate E |].
  exists v, members. split; [exact Hs | split; [exact E | exact Hl]].
Defined.

(** X4: given a failure that is plain data, other than [null] and
    [undefined], whose message and whose response status, where there
    are any, are not objects or arrays (they are [undefined], [null],
    booleans, numbers or strings), [handleError] throws an [Error] of
    the taxonomy. *)
Theorem handleError_normalized (error : Value) :
  error <> JsUndefined ->
  error <> JsNull ->
  (forall message,
      get error "message" = Normal message -> is_primitive message = true) ->
  (forall response status,
      get error "response" = Normal response ->
      get response "status" = Normal status ->
      is_primitive status = true) ->
  exists reason, handleError error = Throw reason /\ Normalized reason.
Proof.
  intros Hu Hn Hmessage Hstatus.
  destruct (handleError_throws error) as [reason H].
  exists reason. split; [exact H |].
  destruct (handleError_Throw error reason H) as [Hnorm | [cause ->]];
    [exact Hnorm | exfalso].
  destruct (handleError_TypeError_inv error cause H)
    as [[_ [E | E]] | (v & Hv & Hs)]; [exact (Hu E) | exact (Hn E) |].
  assert (Hp : is_primitive v = true).
  { destruct Hv as [Hm | (response & Hr & Hst)].
    - exact (Hmessage v Hm).
    - exact (Hstatus response v Hr Hst). }
  destruct (to_string_primitive v Hp) as [s Hs'].
  rewrite Hs' in Hs. discriminate Hs.
Qed.

Lemma handleError_normalized_witness :
  exists reason, handleError plain_error = Throw reason /\ Normalized reason.
Proof.
  apply (handleError_normalized plain_error).
  - discriminate.
  - discriminate.
  - intros message H. injection H as <-. reflexivity.
  - intros response status H. injection H as <-. discriminate.
Defined.

(** X5: a failure that is not an axios error and has a string as its
    message is thrown again as an [Error] whose message is
    "Unexpected Error: " followed by that string. *)
Theorem handleError_wraps_message (error : Value) (message : string) :
  isAxiosError error = false ->
  get error "message" = Normal (JsString message) ->
  handleError error = Throw (JsError ("Unexpected Error: " ++ message)).
Proof.
  intros Hax Hm.
  rewrite (handleError_by_branch error Unknown (reaches_unknown error Hax)).
  simpl. rewrite Hm. reflexivity.
Qed.

Lemma handleError_wraps_message_witness :
  isAxiosError plain_error = false /\
  get plain_error "message" = Normal (JsString "Unexpected Error") /\
  handleError plain_error
    = Throw (JsError "Unexpected Error: Unexpected Error").
Proof.
  split; [reflexivity |]. split; [reflexivity |].
  apply (handleError_wraps_message plain_error "Unexpected Error");
    reflexivity.
Defined.

(** X6: the status is compared without conversion: when the response of
    an axios error has a status that is not a number (a string such as
    "404", or none at all), no case of the switch applies and the Error
    thrown is "Unexpected Error: " followed by the status as rendered. *)
Theorem handleError_status_not_a_number (error response status : Value)
  (rendered : string) :
  isAxiosError error = true ->
  get error "response" = Normal response ->
  truthy response = true ->
  get response "status" = Normal status ->
  (forall n, status <> JsNumber n) ->
  to_string status = Normal rendered ->
  handleError error = Throw (JsError ("Unexpected Error: " ++ rendered)).
Proof.
  intros Hax Hresp Ht Hstatus Hnum Hs.
  rewrite (handleError_by_branch error StatusCodeMap
             (reaches_status error response Hax Hresp Ht)).
  simpl. rewrite Hresp. simpl. rewrite Hstatus. simpl.
  unfold switch_status.
  destruct status as [ | | b | n | s | items | members ];
    try (simpl strict_equals_number; cbv iota; rewrite Hs; reflexivity).
  exfalso. exact (Hnum n eq_refl).
Qed.

Lemma handleError_status_not_a_number_witness :
  isAxiosError
    (JsObject [ ("response", JsObject [ ("status", JsString "404") ]);
                ("isAxiosError", JsBool true) ]) = true /\
  handleError
    (JsObject [ ("response", JsObject [ ("status", JsString "404") ]);
                ("isAxiosError", JsBool true) ])
  = Throw (JsError "Unexpected Error: 404").
Proof.
  split; [reflexivity |].
  apply (handleError_status_not_a_number
           (JsObject [ ("response", JsObject [ ("status", JsString "404") ]);
                       ("isAxiosError", JsBool true) ])
           (JsObject [ ("status", JsString "404") ])
           (JsString "404") "404");
    try reflexivity.
  intros n. discriminate.
Defined.

(** X7: of an axios error that carries a response, [handleError] uses the
    status of the response and nothing else: two such failures whose
    responses have the same status are translated to the same thing,
    whatever their bodies, messages and other members are. *)
Theorem handleError_uses_status_only (e1 e2 r1 r2 : Value) :
  isAxiosError e1 = true ->
  isAxiosError e2 = true ->
  get e1 "response" = Normal r1 ->
  get e2 "response" = Normal r2 ->
  truthy r1 = true ->
  truthy r2 = true ->
  get r1 "status" = get r2 "status" ->
  handleError e1 = handleError e2.
Proof.
  intros Hax1 Hax2 Hr1 Hr2 Ht1 Ht2 Hs.
  rewrite (handleError_by_branch e1 StatusCodeMap
             (reaches_status e1 r1 Hax1 Hr1 Ht1)).
  rewrite (handleError_by_branch e2 StatusCodeMap
             (reaches_status e2 r2 Hax2 Hr2 Ht2)).
  simpl. rewrite Hr1, Hr2. simpl. rewrite Hs. reflexivity.
Qed.

Lemma handleError_uses_status_only_witness :
  handleError (status_error 500 "Internal Server Error")
  = handleError
      (JsObject [ ("message", JsString "Request failed with status code 500");
                  ("request", JsObject []);
                  ("response",
                   JsObject [ ("data", JsObject [ ("error", JsString "boom") ]);
                              ("status", JsNumber 500) ]);
                  ("isAxiosError", JsBool true) ]).
Proof.
  apply (handleError_uses_status_only
           (status_error 500 "Internal Server Error") _
           (status_response 500 "Internal Server Error")
           (JsObject [ ("data", JsObject [ ("error", JsString "boom") ]);
                       ("status", JsNumber 500) ]));
    reflexivity.
Defined.

(** X8: [handleError] looks at four things only: whether the failure is
    an axios error, and its [response], [request] and [message].  Two
    failures that agree on these are translated to the same thing. *)
Theorem handleError_reads_four_members (e1 e2 : Value) :
  isAxiosError e1 = isAxiosError e2 ->
  get e1 "response" = get e2 "response" ->
  get e1 "request" = get e2 "request" ->
  get e1 "message" = get e2 "message" ->
  handleError e1 = handleError e2.
Proof.
  intros Hax Hr Hq Hm. unfold handleError.
  rewrite Hax, Hr, Hq, Hm. reflexivity.
Qed.

Lemma handleError_reads_four_members_witness :
  handleError network_error
  = handleError
      (JsObject [ ("code", JsString "ERR_NETWORK");
                  ("name", JsString "AxiosError");
                  ("message", JsString "Network Error");
                  ("isAxiosError", JsBool true) ]).
Proof.
  apply (handleError_reads_four_members network_error
           (JsObject [ ("code", JsString "ERR_NETWORK");
                       ("name", JsString "AxiosError");
                       ("message", JsString "Network Error");
                       ("isAxiosError", JsBool true) ]));
    reflexivity.
Defined.

(* ===================================================================== *)
(** ** Further properties of the accessors *)
(* ===================================================================== *)

Lemma last_call_inv (calls : list GetCall) (r r' : GetCall) :
  (calls ++ [r])%list = (calls ++ [r'])%list -> r = r'.
Proof.
  intros H. apply app_inv_head in H. injection H as ->. reflexivity.
Qed.

Lemma invoke_request (this : SleeperAPI) (call : Invocation)
  (calls : list GetCall) (r : GetCall) :
  snd (invoke this call calls) = (calls ++ [r])%list ->
  r = expected_request call.
Proof.
  rewrite invoke_calls_once. intros H. symmetry.
  exact (last_call_inv calls _ _ H).
Qed.

(** X9: an accessor calls the transport once, however the call ends:
    after it, the transport has received the calls it had received
    before and one more, and nothing is tried again after a failure. *)
Theorem accessor_calls_transport_once (this : SleeperAPI) (call : Invocation)
  (calls : list GetCall) :
  exists r,
    snd (invoke this call calls) = (calls ++ [r])%list /\
    length (snd (invoke this call calls)) = S (length calls).
Proof.
  exists (expected_request call).
  rewrite invoke_calls_once. split; [reflexivity |].
  rewrite length_app. simpl. apply Nat.add_1_r.
Qed.

(** X10: the promise of an accessor is fulfilled only with the body of
    a response the transport delivered for its request; there is no
    other value it resolves with. *)
Theorem accessor_fulfilled_only_with_body (this : SleeperAPI)
  (call : Invocation) (calls calls' : list GetCall) (value : Value) :
  invoke this call calls = (Fulfilled value, calls') ->
  exists r response,
    calls' = (calls ++ [r])%list /\
    axiosInstance this r = Resolves response /\
    value = data response.
Proof.
  rewrite invoke_expected_request. unfold try_get.
  destruct (axiosInstance this (expected_request call))
    as [response | error] eqn:Hout.
  - intros H. injection H as <- <-.
    exists (expected_request call), response.
    split; [reflexivity | split; [exact Hout | reflexivity]].
  - destruct (handleError error) as [v | reason] eqn:Hh.
    + exfalso. exact (handleError_never_returns error v Hh).
    + discriminate.
Qed.

Lemma accessor_fulfilled_only_with_body_witness :
  invoke (client (always (Resolves (ok_response mockUser))))
    (CallGetUserById "12345678") []
  = (Fulfilled mockUser, [path "/user/12345678"]) /\
  exists r response,
    [path "/user/12345678"] = ([] ++ [r])%list /\
    axiosInstance (client (always (Resolves (ok_response mockUser)))) r
    = Resolves response /\
    mockUser = data response.
Proof.
  split; [reflexivity |].
  apply (accessor_fulfilled_only_with_body
           (client (always (Resolves (ok_response mockUser))))
           (CallGetUserById "12345678") [] [path "/user/12345678"] mockUser).
  reflexivity.
Defined.

(** X11: when the transport rejects, the accessor rejects, with what
    [handleError] throws for the failure; it does not resolve. *)
Theorem accessor_rejects_on_failure (this : SleeperAPI) (call : Invocation)
  (calls : list GetCall) (r : GetCall) (error : Value) :
  snd (invoke this call calls) = (calls ++ [r])%list ->
  axiosInstance this r = Rejects error ->
  exists reason,
    handleError error = Throw reason /\
    invoke this call calls = (Rejected reason, (calls ++ [r])%list).
Proof.
  intros Hr Hout.
  pose proof (invoke_request this call calls r Hr) as ->.
  exact (invoke_Rejects this call error calls Hout).
Qed.

Lemma accessor_rejects_on_failure_witness :
  exists reason,
    handleError no_response_error = Throw reason /\
    invoke (client (always (Rejects no_response_error)))
      (CallGetMatchups "289646328504385536" 1) []
    = (Rejected reason,
       ([] ++ [path "/league/289646328504385536/matchups/1"])%list).
Proof.
  apply (accessor_rejects_on_failure
           (client (always (Rejects no_response_error)))
           (CallGetMatchups "289646328504385536" 1) []
           (path "/league/289646328504385536/matchups/1") no_response_error);
    reflexivity.
Defined.

(* ===================================================================== *)
(** ** Request paths *)
(* ===================================================================== *)

Lemma split_slash_cons_piece (s : string) :
  exists piece pieces, split_slash s = piece :: pieces.
Proof.
  destruct s as [| c rest]; simpl.
  - eexists. eexists. reflexivity.
  - destruct (Ascii.eqb c "/"); [eexists; eexists; reflexivity |].
    destruct (split_slash rest); eexists; eexists; reflexivity.
Qed.

Lemma split_slash_app (s rest : string) :
  has_slash s = false ->
  split_slash (s ++ String "/" rest) = s :: split_slash rest.
Proof.
  induction s as [| c s IH]; simpl; [reflexivity |].
  destruct (Ascii.eqb c "/"); [discriminate |].
  intros H. rewrite (IH H). reflexivity.
Qed.

Lemma split_slash_free (s : string) :
  has_slash s = false -> split_slash s = [s].
Proof.
  induction s as [| c s IH]; simpl; [reflexivity |].
  destruct (Ascii.eqb c "/"); [discriminate |].
  intros H. rewrite (IH H). reflexivity.
Qed.

(** Splitting a rendered path gives its segments back, after the empty
    piece in front of the first slash. *)
Lemma split_slash_render (segments : list string) :
  segments <> [] ->
  forallb (fun s => negb (has_slash s)) segments = true ->
  split_slash (render segments) = "" :: segments.
Proof.
  induction segments as [| s rest IH]; [intros H; contradiction H; reflexivity |].
  intros _ H. simpl in H. apply andb_prop in H as [Hs Hrest].
  apply negb_true_iff in Hs.
  destruct rest as [| s2 rest'].
  - simpl. rewrite (split_slash_free s Hs). reflexivity.
  - assert (IH' := IH ltac:(discriminate) Hrest).
    change (render (s :: s2 :: rest'))
      with (String "/" (s ++ render (s2 :: rest'))).
    assert (E : exists tail, render (s2 :: rest') = String "/" tail)
      by (destruct rest'; eexists; reflexivity).
    destruct E as [tail E]. rewrite E in *.
    simpl. rewrite (split_slash_app s tail Hs).
    simpl in IH'. injection IH' as ->. reflexivity.
Qed.

Lemma string_of_uint_slash_free (d : Decimal.uint) :
  has_slash (NilEmpty.string_of_uint d) = false.
Proof.
  induction d; simpl; assumption || reflexivity.
Qed.

Lemma number_to_string_slash_free (n : Z) :
  has_slash (number_to_string n) = false.
Proof.
  unfold number_to_string, NilZero.string_of_int, NilZero.string_of_uint.
  destruct (Z.to_int n) as [d | d]; destruct d; simpl;
    try reflexivity; apply string_of_uint_slash_free.
Qed.

Lemma number_to_string_inj (n m : Z) :
  number_to_string n = number_to_string m -> n = m.
Proof.
  assert (Hnil : forall z, Z.to_int z <> Decimal.Pos Decimal.Nil /\
                           Z.to_int z <> Decimal.Neg Decimal.Nil).
  { intros [| p | p]; simpl; split; try discriminate;
      intros H; injection H as H;
      exact (DecimalPos.Unsigned.to_uint_nonnil p H). }
  unfold number_to_string. intros H.
  apply DecimalZ.to_int_inj.
  destruct (Hnil n) as [Hn1 Hn2]. destruct (Hnil m) as [Hm1 Hm2].
  pose proof (NilZero.isi (Z.to_int n) Hn1 Hn2) as En.
  pose proof (NilZero.isi (Z.to_int m) Hm1 Hm2) as Em.
  rewrite H in En. rewrite En in Em. injection Em as ->. reflexivity.
Qed.

Lemma endpoint_path_slash_free (call : Invocation) :
  slash_free call = true ->
  endpoint_path call <> [] /\
  forallb (fun s => negb (has_slash s)) (endpoint_path call) = true.
Proof.
  unfold slash_free. intros H. split; [destruct call; discriminate |].
  destruct call as [ u | u | u [sp |] se | l | l | l | l w | l | l | l r | l
                   | sp | u [sp |] se | l | d | d | d | [sp |] | sp [|] h li ];
    simpl in *;
    rewrite ?number_to_string_slash_free; simpl;
    repeat match goal with
           | H : (_ && _)%bool = true |- _ => apply andb_prop in H as [? H]
           end;
    repeat match goal with
           | H : negb (has_slash ?s) = true |- context [has_slash ?s] =>
               rewrite H
           end;
    reflexivity.
Qed.

(** X12: when no string argument of the call contains a slash, the path
    an accessor requests can be taken apart again: split at its slashes
    it gives, after the empty piece in front of the first slash, the
    segments of the endpoint with the arguments as they were passed. *)
Theorem request_path_round_trip (this : SleeperAPI) (call : Invocation)
  (calls : list GetCall) (r : GetCall) :
  slash_free call = true ->
  snd (invoke this call calls) = (calls ++ [r])%list ->
  split_slash (url r) = "" :: endpoint_path call.
Proof.
  intros Hfree Hr. rewrite (invoke_request this call calls r Hr).
  destruct (endpoint_path_slash_free call Hfree) as [Hne Hall].
  exact (split_slash_render (endpoint_path call) Hne Hall).
Qed.

Lemma request_path_round_trip_witness :
  slash_free (CallGetLeaguesForUser "12345678" None "2018") = true /\
  split_slash "/user/12345678/leagues/nfl/2018"
  = [""; "user"; "12345678"; "leagues"; "nfl"; "2018"].
Proof.
  split; [reflexivity |].
  apply (request_path_round_trip (client (always (Rejects JsNull)))
           (CallGetLeaguesForUser "12345678" None "2018") []
           (path "/user/12345678/leagues/nfl/2018"));
    reflexivity.
Defined.

(** X13: two accessor calls whose string arguments contain no slash
    request the same path only if they are calls of the same endpoint
    with the same arguments in the path. *)
Theorem request_path_injective (this1 this2 : SleeperAPI)
  (call1 call2 : Invocation) (calls1 calls2 : list GetCall)
  (r1 r2 : GetCall) :
  slash_free call1 = true ->
  slash_free call2 = true ->
  snd (invoke this1 call1 calls1) = (calls1 ++ [r1])%list ->
  snd (invoke this2 call2 calls2) = (calls2 ++ [r2])%list ->
  url r1 = url r2 ->
  endpoint_path call1 = endpoint_path call2.
Proof.
  intros Hf1 Hf2 Hr1 Hr2 Hurl.
  rewrite (invoke_request this1 call1 calls1 r1 Hr1) in Hurl.
  rewrite (invoke_request this2 call2 calls2 r2 Hr2) in Hurl.
  destruct (endpoint_path_slash_free call1 Hf1) as [Hne1 Hall1].
  destruct (endpoint_path_slash_free call2 Hf2) as [Hne2 Hall2].
  pose proof (split_slash_render _ Hne1 Hall1) as E1.
  pose proof (split_slash_render _ Hne2 Hall2) as E2.
  simpl in Hurl. rewrite Hurl in E1. rewrite E1 in E2.
  injection E2 as E2. exact E2.
Qed.

Lemma request_path_injective_witness :
  endpoint_path (CallGetUserByUsername "12345678")
  = endpoint_path (CallGetUserById "12345678").
Proof.
  apply (request_path_injective
           (client (always (Rejects JsNull)))
           (client (always (Resolves (ok_response mockUser))))
           (CallGetUserByUsername "12345678") (CallGetUserById "12345678")
           [] [path "/state/nfl"]
           (path "/user/12345678") (path "/user/12345678"));
    reflexivity.
Defined.

(** X14: [getMatchups] requests the same path for two leagues and weeks
    only if the leagues and the weeks are the same, provided neither
    league identifier contains a slash. *)
Theorem getMatchups_path_injective (this : SleeperAPI)
  (leagueId1 leagueId2 : string) (week1 week2 : Z) (calls : list GetCall) :
  has_slash leagueId1 = false ->
  has_slash leagueId2 = false ->
  snd (getMatchups this leagueId1 week1 calls)
  = snd (getMatchups this leagueId2 week2 calls) ->
  leagueId1 = leagueId2 /\ week1 = week2.
Proof.
  intros H1 H2 H.
  change (snd (invoke this (CallGetMatchups leagueId1 week1) calls)
          = snd (invoke this (CallGetMatchups leagueId2 week2) calls)) in H.
  rewrite !invoke_calls_once in H.
  apply last_call_inv in H. apply (f_equal url) in H.
  assert (Hf : forall l w, has_slash l = false ->
                           slash_free (CallGetMatchups l w) = true)
    by (intros l w Hl; unfold slash_free; simpl; rewrite Hl; reflexivity).
  destruct (endpoint_path_slash_free _ (Hf _ week1 H1)) as [Hne1 Hall1].
  destruct (endpoint_path_slash_free _ (Hf _ week2 H2)) as [Hne2 Hall2].
  pose proof (split_slash_render _ Hne1 Hall1) as E1.
  pose proof (split_slash_render _ Hne2 Hall2) as E2.
  change (render (endpoint_path (CallGetMatchups leagueId1 week1))
          = render (endpoint_path (CallGetMatchups leagueId2 week2))) in H.
  rewrite H in E1. rewrite E1 in E2.
  simpl in E2. injection E2 as El Ew.
  split; [exact El | exact (number_to_string_inj _ _ Ew)].
Qed.

Lemma getMatchups_path_injective_witness :
  has_slash "289646328504385536" = false /\
  "289646328504385536" = "289646328504385536" /\ 1 = 1.
Proof.
  split; [reflexivity |].
  apply (getMatchups_path_injective (client (always (Rejects JsNull)))
           "289646328504385536" "289646328504385536" 1 1 []);
    reflexivity.
Defined.

(** X15: identifiers are put into the path as they are, slashes
    included, so an identifier that contains a slash reaches another
    endpoint: [getLeague] on an identifier ending in "/rosters" is the
    call [getRosters] makes, [getDraft] on one ending in "/picks" the
    call [getPicksInDraft] makes, and [getUserById] on
    "{id}/leagues/{sport}/{season}" the call [getLeaguesForUser]
    makes. *)
Theorem identifiers_are_not_escaped (this : SleeperAPI)
  (id sport season : string) :
  getLeague this (id ++ "/rosters") = getRosters this id /\
  getDraft this (id ++ "/picks") = getPicksInDraft this id /\
  getUserById this (id ++ "/leagues/" ++ sport ++ "/" ++ season)
  = getLeaguesForUser this id (Some sport) season.
Proof.
  repeat split; reflexivity.
Qed.

(** X16: every path an accessor requests begins with a slash (it is
    relative to the base URL of the transport; [BASE_URL] is no part of
    it), and only [getTrendingPlayers] passes a second argument to
    [get]. *)
Theorem requests_are_relative (this : SleeperAPI) (call : Invocation)
  (calls : list GetCall) (r : GetCall) :
  snd (invoke this call calls) = (calls ++ [r])%list ->
  (exists rest, url r = String "/" rest) /\
  match call with
  | CallGetTrendingPlayers _ _ _ _ => config r <> None
  | _ => config r = None
  end.
Proof.
  intros Hr. rewrite (invoke_request this call calls r Hr).
  split.
  - destruct call; simpl; eexists; reflexivity.
  - destruct call; simpl; try reflexivity. discriminate.
Qed.

Lemma requests_are_relative_witness :
  (exists rest, "/players/nfl" = String "/" rest) /\
  @None AxiosRequestConfig = None.
Proof.
  apply (requests_are_relative (client (always (Rejects JsNull)))
           (CallGetAllPlayers None) [] (path "/players/nfl")).
  reflexivity.
Defined.

(** [getUserByUsername] and [getUserById] make the same request for the
    same string, and so settle the same way. *)
Remark user_lookups_coincide (this : SleeperAPI) (name_or_id : string)
  (calls : list GetCall) :
  getUserByUsername this name_or_id calls = getUserById this name_or_id calls.
Proof.
  reflexivity.
Qed.

(** X17: a sport that is left out is "nfl" in the path, for the leagues
    and the drafts of a user and for the players. *)
Theorem omitted_sport_is_nfl (this : SleeperAPI) (userId season : string)
  (calls : list GetCall) :
  snd (getLeaguesForUser this userId None season calls)
  = (calls ++ [path ("/user/" ++ userId ++ "/leagues/nfl/" ++ season)])%list /\
  snd (getDraftsForUser this userId None season calls)
  = (calls ++ [path ("/user/" ++ userId ++ "/drafts/nfl/" ++ season)])%list /\
  snd (getAllPlayers this None calls) = (calls ++ [path "/players/nfl"])%list.
Proof.
  split; [| split].
  - exact (invoke_calls_once this
             (CallGetLeaguesForUser userId None season) calls).
  - exact (invoke_calls_once this
             (CallGetDraftsForUser userId None season) calls).
  - exact (invoke_calls_once this (CallGetAllPlayers None) calls).
Qed.

(** X18: the two query parameters of [getTrendingPlayers] are defaulted
    one by one, and a value that is given is sent as it is: zero and
    negative values are neither replaced by the default nor refused. *)
Theorem getTrendingPlayers_forwards_query (this : SleeperAPI)
  (sport : string) (type : TrendingType) (lookbackHours limit : Z)
  (calls : list GetCall) :
  let request (h l : Z) :=
    {| url := "/players/" ++ sport ++ "/trending/" ++ TrendingType_text type;
       config := Some {| params := [ ("lookback_hours", JsNumber h);
                                     ("limit", JsNumber l) ] |} |} in
  snd (getTrendingPlayers this sport type (Some lookbackHours) (Some limit) calls)
  = (calls ++ [request lookbackHours limit])%list /\
  snd (getTrendingPlayers this sport type (Some lookbackHours) None calls)
  = (calls ++ [request lookbackHours 25])%list /\
  snd (getTrendingPlayers this sport type None (Some limit) calls)
  = (calls ++ [request 24 limit])%list.
Proof.
  intros request. split; [| split].
  - exact (invoke_calls_once this
             (CallGetTrendingPlayers sport type (Some lookbackHours) (Some limit))
             calls).
  - exact (invoke_calls_once this
             (CallGetTrendingPlayers sport type (Some lookbackHours) None)
             calls).
  - exact (invoke_calls_once this
             (CallGetTrendingPlayers sport type None (Some limit)) calls).
Qed.

(* ===================================================================== *)
(** ** Further properties of the avatar URL and of the constructor *)
(* ===================================================================== *)

Lemma append_inv_head (prefix a b : string) :
  prefix ++ a = prefix ++ b -> a = b.
Proof.
  induction prefix as [| c prefix IH]; simpl; intros H; [exact H |].
  injection H as H. exact (IH H).
Qed.

(** X19: for identifiers without a slash the avatar URL tells the
    identifier and the size apart: two calls give the same URL only for
    the same identifier and the same thumbnail flag (an omitted flag
    being false). *)
Theorem getAvatarUrl_injective (a b : string) (ta tb : option bool) :
  has_slash a = false ->
  has_slash b = false ->
  getAvatarUrl a ta = getAvatarUrl b tb ->
  a = b /\ Spec.default false ta = Spec.default false tb.
Proof.
  intros Ha Hb.
  assert (Hthumb : forall x y,
             has_slash y = false ->
             "https://sleepercdn.com/avatars" ++ "/thumbs/" ++ x
             = "https://sleepercdn.com/avatars" ++ "/" ++ y -> False).
  { intros x y Hy H.
    apply (append_inv_head "https://sleepercdn.com/avatars/"
             ("thumbs/" ++ x) y) in H.
    subst y. discriminate Hy. }
  unfold getAvatarUrl.
  destruct ta as [[|] |], tb as [[|] |]; simpl Spec.default; cbv iota zeta;
    intros H;
    try (split; [| reflexivity];
         first [ exact (append_inv_head
                          "https://sleepercdn.com/avatars/thumbs/" a b H)
               | exact (append_inv_head
                          "https://sleepercdn.com/avatars/" a b H) ]);
    exfalso;
    first [ exact (Hthumb a b Hb H) | exact (Hthumb b a Ha (eq_sym H)) ].
Qed.

Lemma getAvatarUrl_injective_witness :
  has_slash "abc123" = false /\
  "abc123" = "abc123" /\ Spec.default false None = Spec.default false (Some false).
Proof.
  split; [reflexivity |].
  apply (getAvatarUrl_injective "abc123" "abc123" None (Some false));
    reflexivity.
Defined.

(** X20: a transport that is passed to the constructor is the one the
    client uses, whatever [axios.create] would make; without one the
    client uses the instance created for its own [BASE_URL],
    "https://api.sleeper.app/v1", with a timeout of 10000 ms, and every
    accessor settles as that instance settles its request. *)
Theorem constructor_transport
  (create create' : CreateAxiosDefaults -> AxiosInstance)
  (instance : AxiosInstance) (call : Invocation) (calls : list GetCall) :
  invoke (new_SleeperAPI create (Some instance)) call calls
  = invoke (new_SleeperAPI create' (Some instance)) call calls /\
  axiosInstance (new_SleeperAPI create (Some instance)) = instance /\
  BASE_URL (new_SleeperAPI create None) = "https://api.sleeper.app/v1" /\
  axiosInstance (new_SleeperAPI create None)
  = create {| baseURL := BASE_URL (new_SleeperAPI create None);
              timeout := 10000 |} /\
  forall response,
    create {| baseURL := "https://api.sleeper.app/v1"; timeout := 10000 |}
      (expected_request call) = Resolves response ->
    invoke (new_SleeperAPI create None) call calls
    = (Fulfilled (data response), (calls ++ [expected_request call])%list).
Proof.
  repeat split.
  intros response H. rewrite invoke_expected_request.
  apply try_get_Resolves. exact H.
Qed.
